(** * HyperHealth at-rest encryption helpers, phone stub and API stub

    A shallow embedding of the Python modules

      - [src/records/encryption.py]   (module [RecordsEncryption])
      - [src/security/crypto.py]      (module [SecurityCrypto])
      - [src/phone/__init__.py]       (module [Phone])
      - [src/api/__init__.py]         (module [Api])
      - [src/config/settings.py]      (module [Settings])

    together with the primitives of the third-party libraries they call:
    AES (FIPS 197), GCM (NIST SP 800-38D), SHA-256 (FIPS 180-4), HMAC
    (RFC 2104), PBKDF2 (RFC 8018), base64 (RFC 4648, as CPython's
    [binascii] decodes it) and [bytes.fromhex].

    Python [bytes] are [list byte]; a Python [str] is the [string] of its
    UTF-8 bytes; exceptions are the constructors of [exn]; the process
    environment, the file system, the working directory and the kernel's
    entropy pool are the fields of [World], threaded through the
    effectful functions by the monad [Py]. *)

From Stdlib Require Import String Ascii.
From Stdlib Require Import List NArith ZArith Lia Bool Arith.
From Stdlib Require Import Strings.Byte.
Import ListNotations.

(* ================================================================== *)
(** * Bytes *)
(* ================================================================== *)

Module Bytes.

Definition byte_of_N (n : N) : byte :=
  match Byte.of_N (n mod 256) with
  | Some b => b
  | None => x00
  end.

(** [a ^ b] on two bytes. *)
Definition bxor (a b : byte) : byte :=
  byte_of_N (N.lxor (Byte.to_N a) (Byte.to_N b)).

(** [bytes(x ^ y for x, y in zip(d, ks))]: stops at the shorter one. *)
Fixpoint xor_bytes (d ks : list byte) : list byte :=
  match d, ks with
  | x :: d', k :: ks' => bxor x k :: xor_bytes d' ks'
  | _, _ => []
  end.

(** [int.from_bytes(bs, "big")]. *)
Definition N_of_bytes (bs : list byte) : N :=
  fold_left (fun acc b => (acc * 256 + Byte.to_N b)%N) bs 0%N.

(** [(n mod 2^(8 len)).to_bytes(len, "big")]. *)
Fixpoint bytes_of_N (len : nat) (n : N) : list byte :=
  match len with
  | O => []
  | S l => byte_of_N (N.shiftr n (8 * N.of_nat l)) :: bytes_of_N l n
  end.

Definition zeros (n : nat) : list byte := repeat x00 n.

Definition byte_eqb (a b : byte) : bool := Byte.eqb a b.

Fixpoint bytes_eqb (a b : list byte) : bool :=
  match a, b with
  | [], [] => true
  | x :: a', y :: b' => Byte.eqb x y && bytes_eqb a' b'
  | _, _ => false
  end.

(** The [i]-th chunk of [n] bytes of [bs] (the last one may be short). *)
Definition chunk (n : nat) (bs : list byte) (i : nat) : list byte :=
  firstn n (skipn (n * i) bs).

(** Number of [n]-byte chunks needed to cover [len] bytes. *)
Definition nchunks (n len : nat) : nat := (len + (n - 1)) / n.

Definition all_bytes : list byte :=
  Eval vm_compute in map (fun i => byte_of_N (N.of_nat i)) (seq 0 256).


End Bytes.
Import Bytes.

(* ================================================================== *)
(** * AES (FIPS 197) *)
(* ================================================================== *)

Module AES.
Local Open Scope N_scope.

(** Multiplication by x in GF(2^8) modulo x^8 + x^4 + x^3 + x + 1. *)
Definition xtime (a : N) : N :=
  let s := N.land (N.shiftl a 1) 255 in
  if N.testbit a 7 then N.lxor s 27 else s.

Fixpoint gmul_aux (n : nat) (a b acc : N) : N :=
  match n with
  | O => acc
  | S n' =>
      gmul_aux n' (xtime a) (N.shiftr b 1)
               (if N.testbit b 0 then N.lxor acc a else acc)
  end.

Definition gmul (a b : N) : N := gmul_aux 8 a b 0.

Fixpoint gpow (a : N) (e : nat) : N :=
  match e with
  | O => 1
  | S e' => gmul a (gpow a e')
  end.

Definition rotl8 (x : N) (k : N) : N :=
  N.land (N.lor (N.shiftl x k) (N.shiftr x (8 - k))) 255.

(** The S-box entry of [x]: the affine map of the inverse of [x]. *)
Definition sbox_entry (x : N) : N :=
  let i := gpow x 254 in
  N.lxor (N.lxor (N.lxor (N.lxor (N.lxor i (rotl8 i 1)) (rotl8 i 2))
                         (rotl8 i 3)) (rotl8 i 4)) 99.

Definition sbox_table : list N :=
  Eval vm_compute in map (fun i => sbox_entry (N.of_nat i)) (seq 0 256).

Definition sbox (x : N) : N := nth (N.to_nat x) sbox_table 0.

(** A state is the list of its 16 bytes in input order: s[r,c] is at
    index r + 4c. *)
Definition state := list N.

Definition sub_bytes (s : state) : state := map sbox s.

Definition shift_rows (s : state) : state :=
  map (fun i => nth i s 0)
      [0; 5; 10; 15; 4; 9; 14; 3; 8; 13; 2; 7; 12; 1; 6; 11]%nat.

Definition mix_column (a0 a1 a2 a3 : N) : list N :=
  [ N.lxor (N.lxor (gmul a0 2) (gmul a1 3)) (N.lxor a2 a3);
    N.lxor (N.lxor a0 (gmul a1 2)) (N.lxor (gmul a2 3) a3);
    N.lxor (N.lxor a0 a1) (N.lxor (gmul a2 2) (gmul a3 3));
    N.lxor (N.lxor (gmul a0 3) a1) (N.lxor a2 (gmul a3 2)) ].

Definition mix_columns (s : state) : state :=
  flat_map (fun c => mix_column (nth (4 * c) s 0) (nth (4 * c + 1) s 0)
                                (nth (4 * c + 2) s 0) (nth (4 * c + 3) s 0))
           [0; 1; 2; 3]%nat.

Definition add_round_key (s rk : state) : state :=
  map (fun i => N.lxor (nth i s 0) (nth i rk 0)) (seq 0 16).

(** Key schedule, on 32-bit words. *)
Definition sub_word (w : N) : N :=
  N.lor (N.lor (N.shiftl (sbox (N.land (N.shiftr w 24) 255)) 24)
               (N.shiftl (sbox (N.land (N.shiftr w 16) 255)) 16))
        (N.lor (N.shiftl (sbox (N.land (N.shiftr w 8) 255)) 8)
               (sbox (N.land w 255))).

Definition rot_word (w : N) : N :=
  N.lor (N.land (N.shiftl w 8) 4294967295) (N.shiftr w 24).

(** [rev_w] holds w[i-1], w[i-2], ..., w[0]. *)
Fixpoint expand (Nk : nat) (n i : nat) (rcon : N) (rev_w : list N) : list N :=
  match n with
  | O => rev rev_w
  | S n' =>
      let temp := hd 0 rev_w in
      let old := nth (Nk - 1) rev_w 0 in
      if (i mod Nk =? 0)%nat then
        expand Nk n' (S i) (xtime rcon)
          (N.lxor old (N.lxor (sub_word (rot_word temp)) (N.shiftl rcon 24))
             :: rev_w)
      else if ((6 <? Nk) && (i mod Nk =? 4))%nat then
        expand Nk n' (S i) rcon (N.lxor old (sub_word temp) :: rev_w)
      else
        expand Nk n' (S i) rcon (N.lxor old temp :: rev_w)
  end.

Definition word_bytes (w : N) : list N :=
  [ N.land (N.shiftr w 24) 255; N.land (N.shiftr w 16) 255;
    N.land (N.shiftr w 8) 255; N.land w 255 ].

(** The [Nr + 1] round keys of a key of [4 Nk] bytes. *)
Definition key_expansion (key : list byte) : list state :=
  let Nk := (length key / 4)%nat in
  let Nr := (Nk + 6)%nat in
  let w0 := map (fun i => N_of_bytes (chunk 4 key i)) (seq 0 Nk) in
  let w := expand Nk (4 * (Nr + 1) - Nk) Nk 1 (rev w0) in
  map (fun r => flat_map word_bytes (firstn 4 (skipn (4 * r) w)))
      (seq 0 (Nr + 1)).

Definition round (s rk : state) : state :=
  add_round_key (mix_columns (shift_rows (sub_bytes s))) rk.

Definition final_round (s rk : state) : state :=
  add_round_key (shift_rows (sub_bytes s)) rk.

Definition cipher (rks : list state) (s : state) : state :=
  match rks with
  | [] => s
  | rk0 :: rest =>
      let s0 := add_round_key s rk0 in
      let s1 := fold_left round (removelast rest) s0 in
      final_round s1 (last rest [])
  end.

(** One block, as 128-bit big-endian numbers. *)
Definition encrypt_block (key : list byte) (x : N) : N :=
  let s := map Byte.to_N (bytes_of_N 16 x) in
  fold_left (fun acc b => acc * 256 + b) (cipher (key_expansion key) s) 0.

End AES.

(* ================================================================== *)
(** * GCM (NIST SP 800-38D) over AES *)
(* ================================================================== *)

Module GCM.
Local Open Scope N_scope.

(** The reduction constant R = 11100001 || 0^120. *)
Definition R : N := N.shiftl 225 120.

(** Multiplication in GF(2^128) (SP 800-38D, algorithm 1): bit 0 of a
    block is the most significant bit of its number. *)
Fixpoint gf_mul_aux (n : nat) (x z v : N) : N :=
  match n with
  | O => z
  | S n' =>
      let z' := if N.testbit x (N.of_nat n') then N.lxor z v else z in
      let v' := if N.testbit v 0 then N.lxor (N.shiftr v 1) R
                else N.shiftr v 1 in
      gf_mul_aux n' x z' v'
  end.

Definition gf_mul (x y : N) : N := gf_mul_aux 128 x 0 y.

(** GHASH_H of a sequence of blocks (algorithm 2). *)
Definition ghash (H : N) (blocks : list N) : N :=
  fold_left (fun y x => gf_mul (N.lxor y x) H) blocks 0.

(** A chunk of at most 16 bytes as a block, zero bits appended. *)
Definition block_of_chunk (c : list byte) : N :=
  N.shiftl (N_of_bytes c) (8 * N.of_nat (16 - length c)).

(** The 128-bit blocks of [bs || 0^pad]. *)
Definition blocks_of_bytes (bs : list byte) : list N :=
  map (fun i => block_of_chunk (chunk 16 bs i))
      (seq 0 (nchunks 16 (length bs))).

(** The block [len(a)]_64 || [len(c)]_64, lengths in bits. *)
Definition len_block (alen clen : nat) : N :=
  N.lor (N.shiftl (8 * N.of_nat alen) 64) (8 * N.of_nat clen).

(** inc_32 applied [i] times: the rightmost 32 bits count modulo 2^32. *)
Definition inc32 (cb : N) (i : N) : N :=
  N.lor (N.shiftl (N.shiftr cb 32) 32) ((cb + i) mod 2 ^ 32).

(** The key stream of GCTR: E(K, cb), E(K, inc32(cb)), ... *)
Definition keystream (key : list byte) (cb : N) (nblocks : nat) : list byte :=
  flat_map (fun i => bytes_of_N 16 (AES.encrypt_block key (inc32 cb (N.of_nat i))))
           (seq 0 nblocks).

(** GCTR_K(ICB, X) (algorithm 3). *)
Definition gctr (key : list byte) (icb : N) (x : list byte) : list byte :=
  xor_bytes x (keystream key icb (nchunks 16 (length x))).

(** The hash subkey H = E(K, 0^128). *)
Definition hash_subkey (key : list byte) : N := AES.encrypt_block key 0.

(** The pre-counter block J0. *)
Definition j0 (key iv : list byte) : N :=
  if (length iv =? 12)%nat then
    N.lor (N.shiftl (N_of_bytes iv) 32) 1
  else
    ghash (hash_subkey key)
          (blocks_of_bytes iv ++ [len_block 0 (length iv)]).

(** The 16-byte tag of ciphertext [c] with additional data [a]. *)
Definition tag (key iv a c : list byte) : list byte :=
  let s := ghash (hash_subkey key)
                 (blocks_of_bytes a ++ blocks_of_bytes c
                    ++ [len_block (length a) (length c)]) in
  bytes_of_N 16 (N.lxor (AES.encrypt_block key (j0 key iv)) s).

(** GCM-AE_K(IV, P, A) (algorithm 4), with a full 128-bit tag. *)
Definition encrypt (key iv p a : list byte) : list byte * list byte :=
  let c := gctr key (inc32 (j0 key iv) 1) p in
  (c, tag key iv a c).

(** GCM-AD_K(IV, C, A, T) (algorithm 5): [None] is FAIL. *)
Definition decrypt (key iv c a t : list byte) : option (list byte) :=
  if bytes_eqb t (tag key iv a c) then
    Some (gctr key (inc32 (j0 key iv) 1) c)
  else None.

End GCM.

(* ================================================================== *)
(** * SHA-256 (FIPS 180-4), HMAC (RFC 2104), PBKDF2 (RFC 8018) *)
(* ================================================================== *)

Module SHA256.
Local Open Scope N_scope.

Definition w32 (x : N) : N := x mod 2 ^ 32.
Definition add32 (x y : N) : N := w32 (x + y).
Definition rotr (x n : N) : N :=
  w32 (N.lor (N.shiftr x n) (N.shiftl x (32 - n))).
Definition not32 (x : N) : N := N.lxor x 4294967295.

Definition Ch (x y z : N) : N := N.lxor (N.land x y) (N.land (not32 x) z).
Definition Maj (x y z : N) : N :=
  N.lxor (N.lxor (N.land x y) (N.land x z)) (N.land y z).
Definition Sigma0 (x : N) : N := N.lxor (N.lxor (rotr x 2) (rotr x 13)) (rotr x 22).
Definition Sigma1 (x : N) : N := N.lxor (N.lxor (rotr x 6) (rotr x 11)) (rotr x 25).
Definition sigma0 (x : N) : N := N.lxor (N.lxor (rotr x 7) (rotr x 18)) (N.shiftr x 3).
Definition sigma1 (x : N) : N := N.lxor (N.lxor (rotr x 17) (rotr x 19)) (N.shiftr x 10).

(** The first [n] primes among 2, 3, ..., 311. *)
Definition is_prime (p : nat) : bool :=
  forallb (fun d => negb (p mod d =? 0)%nat) (seq 2 (p - 2)).

Definition primes (n : nat) : list N :=
  map N.of_nat (firstn n (filter is_prime (seq 2 310))).

(** The integer cube root, by bisection on 40 bits. *)
Fixpoint icbrt_aux (bits : nat) (n r : N) : N :=
  match bits with
  | O => r
  | S b =>
      let r' := N.lor r (N.shiftl 1 (N.of_nat b)) in
      icbrt_aux b n (if r' * r' * r' <=? n then r' else r)
  end.

Definition icbrt (n : N) : N := icbrt_aux 40 n 0.

(** The round constants: the first 32 bits of the fractional parts of
    the cube roots of the first 64 primes (FIPS 180-4, 4.2.2). *)
Definition K : list N :=
  Eval vm_compute in map (fun p => w32 (icbrt (p * 2 ^ 96))) (primes 64).

(** The hash value: eight 32-bit words. *)
Record hash := Hash { ha : N; hb : N; hc : N; hd : N;
                      he : N; hf : N; hg : N; hh : N }.

(** The initial hash value: the first 32 bits of the fractional parts of
    the square roots of the first 8 primes (FIPS 180-4, 5.3.3). *)
Definition H0 : hash :=
  Eval vm_compute in
    match map (fun p => w32 (N.sqrt (p * 2 ^ 64))) (primes 8) with
    | [a; b; c; d; e; f; g; h] => Hash a b c d e f g h
    | _ => Hash 0 0 0 0 0 0 0 0
    end.

(** msg || 0x80 || 0^k || [8 len(msg)]_64, a multiple of 64 bytes. *)
Definition pad (msg : list byte) : list byte :=
  let l := length msg in
  msg ++ x80 :: zeros ((119 - l mod 64) mod 64)
      ++ bytes_of_N 8 (8 * N.of_nat l).

(** [rev_w] holds W[t-1], W[t-2], ..., W[0]. *)
Fixpoint schedule (n : nat) (rev_w : list N) : list N :=
  match n with
  | O => rev rev_w
  | S n' =>
      let w := add32 (add32 (sigma1 (nth 1 rev_w 0)) (nth 6 rev_w 0))
                     (add32 (sigma0 (nth 14 rev_w 0)) (nth 15 rev_w 0)) in
      schedule n' (w :: rev_w)
  end.

Definition step (s : hash) (kw : N * N) : hash :=
  let t1 := add32 (add32 (add32 (hh s) (Sigma1 (he s)))
                         (add32 (Ch (he s) (hf s) (hg s)) (fst kw))) (snd kw) in
  let t2 := add32 (Sigma0 (ha s)) (Maj (ha s) (hb s) (hc s)) in
  Hash (add32 t1 t2) (ha s) (hb s) (hc s) (add32 (hd s) t1) (he s) (hf s) (hg s).

Definition compress (h : hash) (block : list byte) : hash :=
  let w0 := map (fun i => N_of_bytes (chunk 4 block i)) (seq 0 16) in
  let w := schedule 48 (rev w0) in
  let s := fold_left step (combine K w) h in
  Hash (add32 (ha h) (ha s)) (add32 (hb h) (hb s))
       (add32 (hc h) (hc s)) (add32 (hd h) (hd s))
       (add32 (he h) (he s)) (add32 (hf h) (hf s))
       (add32 (hg h) (hg s)) (add32 (hh h) (hh s)).

Definition digest_bytes (h : hash) : list byte :=
  bytes_of_N 4 (ha h) ++ bytes_of_N 4 (hb h) ++ bytes_of_N 4 (hc h)
    ++ bytes_of_N 4 (hd h) ++ bytes_of_N 4 (he h) ++ bytes_of_N 4 (hf h)
    ++ bytes_of_N 4 (hg h) ++ bytes_of_N 4 (hh h).

(** [hashlib.sha256(msg).digest()]. *)
Definition sha256 (msg : list byte) : list byte :=
  let p := pad msg in
  digest_bytes
    (fold_left (fun h i => compress h (chunk 64 p i))
               (seq 0 (length p / 64)) H0).

End SHA256.

Module HMAC.

Definition block_size : nat := 64.

(** The key, hashed when longer than a block, zero-padded to a block. *)
Definition block_key (key : list byte) : list byte :=
  let k := if (block_size <? length key)%nat then SHA256.sha256 key else key in
  k ++ zeros (block_size - length k).

(** [hmac.new(key, msg, "sha256").digest()]. *)
Definition hmac_sha256 (key msg : list byte) : list byte :=
  let k := block_key key in
  SHA256.sha256 (xor_bytes k (repeat x5c block_size)
                   ++ SHA256.sha256 (xor_bytes k (repeat x36 block_size) ++ msg)).

End HMAC.

Module PBKDF2.

(** T_i = U_1 ^ U_2 ^ ... ^ U_c  with  U_1 = PRF(P, S || INT(i))
    and U_j = PRF(P, U_{j-1}). *)
Definition F (password salt : list byte) (c : N) (i : nat) : list byte :=
  let u1 := HMAC.hmac_sha256 password (salt ++ bytes_of_N 4 (N.of_nat i)) in
  snd (N.iter (c - 1)
         (fun ut => let u := HMAC.hmac_sha256 password (fst ut) in
                    (u, xor_bytes (snd ut) u))
         (u1, u1)).

(** [hashlib.pbkdf2_hmac("sha256", password, salt, iterations, dklen)]
    for [iterations >= 1] and [dklen >= 1]. *)
Definition pbkdf2_hmac_sha256 (password salt : list byte)
           (iterations : N) (dklen : nat) : list byte :=
  firstn dklen
    (flat_map (fun i => F password salt iterations (S i))
              (seq 0 (nchunks 32 dklen))).

End PBKDF2.

(* ================================================================== *)
(** * Exceptions, the world, and the monad of effectful Python code *)
(* ================================================================== *)

(** The exceptions the modelled code can raise. *)
Inductive exn : Type :=
| RuntimeError       (* raised by [_get_master_key] *)
| ValueError         (* bad key, IV, nonce or tag size; [bytes.fromhex] *)
| binascii_Error     (* [base64.b64decode] on malformed text *)
| InvalidTag         (* [cryptography.exceptions.InvalidTag] *)
| IsADirectoryError  (* [open] on a directory *)
| FileNotFoundError. (* [open] for reading on a missing path *)

Inductive result (A : Type) : Type :=
| Ok (a : A)
| Raise (e : exn).
Arguments Ok {A} a.
Arguments Raise {A} e.

Definition rbind {A B} (r : result A) (k : A -> result B) : result B :=
  match r with
  | Ok a => k a
  | Raise e => Raise e
  end.

Declare Scope result_scope.
Delimit Scope result_scope with result.
Notation "x <- r ;; k" := (rbind r (fun x => k))
  (at level 61, r at next level, right associativity) : result_scope.
Notation "' p <- r ;; k" := (rbind r (fun x => let p := x in k))
  (at level 61, p pattern, r at next level, right associativity) : result_scope.

(** Python objects, as far as the stubs see them. *)
#[warnings="-register-all"]
Inductive pyobj : Type :=
| PyNone
| PyBool (b : bool)
| PyInt (z : Z)
| PyStr (s : string)
| PyBytes (bs : list byte)
| PyList (l : list pyobj)
| PyDict (d : list (pyobj * pyobj))
| PyRef (addr : nat).

(** A node of the file system. *)
Inductive node : Type :=
| File (content : list byte)
| Dir.

(** Everything outside the interpreter that the code can read or change. *)
Record World : Type := mkWorld {
  environ : string -> option string;   (* os.environ *)
  cwd : string;                        (* os.getcwd() *)
  files : string -> option node;       (* the file system, by path *)
  entropy : nat -> byte;               (* the bytes os.urandom will hand out *)
  drawn : nat;                         (* how many of them it has handed out *)
  heap : nat -> option pyobj;          (* mutable objects, by address *)
  outbound : list (list byte)          (* what was sent to the network *)
}.

Definition Py (A : Type) : Type := World -> result A * World.

Definition ret {A} (a : A) : Py A := fun w => (Ok a, w).
Definition raise {A} (e : exn) : Py A := fun w => (Raise e, w).
Definition bind {A B} (m : Py A) (k : A -> Py B) : Py B :=
  fun w => match m w with
           | (Ok a, w') => k a w'
           | (Raise e, w') => (Raise e, w')
           end.
Definition lift {A} (r : result A) : Py A := fun w => (r, w).

Declare Scope py_scope.
Delimit Scope py_scope with py.
Notation "x <- m ;; k" := (bind m (fun x => k))
  (at level 61, m at next level, right associativity) : py_scope.

Definition string_eqb (a b : string) : bool := String.eqb a b.

Module Os.

(** [os.getenv(name)]. *)
Definition getenv (name : string) : Py (option string) :=
  fun w => (Ok (environ w name), w).

(** [os.getcwd()]. *)
Definition getcwd : Py string := fun w => (Ok (cwd w), w).

(** The world once [n] more bytes of entropy have been handed out. *)
Definition draw (n : nat) (w : World) : World :=
  mkWorld (environ w) (cwd w) (files w) (entropy w)
          (drawn w + n) (heap w) (outbound w).

(** [os.urandom(n)]: the next [n] bytes of the entropy pool. *)
Definition urandom (n : nat) : Py (list byte) :=
  fun w => (Ok (map (entropy w) (seq (drawn w) n)), draw n w).

Fixpoint ends_with_sep (s : string) : bool :=
  match s with
  | EmptyString => false
  | String c EmptyString => Ascii.eqb c "/"
  | String _ s' => ends_with_sep s'
  end.

(** [os.path.join(a, b)] (posixpath). *)
Definition path_join (a b : string) : string :=
  match b with
  | String "/" _ => b
  | _ => match a with
         | EmptyString => b
         | _ => if ends_with_sep a then a ++ b else a ++ "/" ++ b
         end
  end.

(** [os.path.exists(path)]. *)
Definition path_exists (path : string) : Py bool :=
  fun w => (Ok (match files w path with Some _ => true | None => false end), w).

(** [with open(path, "rb") as f: return f.read()], [path] existing. *)
Definition read_file (path : string) : Py (list byte) :=
  fun w => match files w path with
           | Some (File content) => (Ok content, w)
           | Some Dir => (Raise IsADirectoryError, w)
           | None => (Raise FileNotFoundError, w)
           end.

(** [with open(path, "wb") as f: f.write(data)] in a writable
    directory: the file is created or truncated, then holds [data]. *)
Definition write_file (path : string) (data : list byte) : Py unit :=
  fun w => match files w path with
           | Some Dir => (Raise IsADirectoryError, w)
           | _ =>
               (Ok tt,
                mkWorld (environ w) (cwd w)
                        (fun p => if string_eqb p path then Some (File data)
                                  else files w p)
                        (entropy w) (drawn w) (heap w) (outbound w))
           end.

End Os.

(* ================================================================== *)
(** * base64 (RFC 4648; decoding as CPython's [binascii.a2b_base64]) *)
(* ================================================================== *)

Module Base64.
Local Open Scope N_scope.

Definition alphabet : string :=
  "ABCDEFGHIJKLMNOPQRSTUVWXYZabcdefghijklmnopqrstuvwxyz0123456789+/".

Definition pad_char : ascii := "=".

(** [table_b2a_base64[i]]. *)
Definition b2a (i : N) : ascii :=
  match String.get (N.to_nat i) alphabet with
  | Some c => c
  | None => pad_char
  end.

Fixpoint index_of (c : ascii) (s : string) (i : N) : option N :=
  match s with
  | EmptyString => None
  | String d s' => if Ascii.eqb c d then Some i else index_of c s' (i + 1)
  end.

(** [table_a2b_base64[c]]: [None] for a character outside the alphabet. *)
Definition a2b (c : ascii) : option N := index_of c alphabet 0.

(** The four 6-bit groups of three bytes [a], [b], [c]. *)
Definition sextet0 (a : N) : N := N.shiftr a 2.
Definition sextet1 (a b : N) : N :=
  N.lor (N.shiftl (N.land a 3) 4) (N.shiftr b 4).
Definition sextet2 (b c : N) : N :=
  N.lor (N.shiftl (N.land b 15) 2) (N.shiftr c 6).
Definition sextet3 (c : N) : N := N.land c 63.

(** [binascii.b2a_base64(bs, newline=False)], as text: a last group of
    one or two bytes is completed with zero bits and pad characters. *)
Fixpoint b2a_base64 (bs : list byte) : string :=
  match bs with
  | [] => EmptyString
  | [a] =>
      let a := Byte.to_N a in
      String (b2a (sextet0 a))
     (String (b2a (sextet1 a 0))
     (String pad_char (String pad_char EmptyString)))
  | [a; b] =>
      let a := Byte.to_N a in
      let b := Byte.to_N b in
      String (b2a (sextet0 a))
     (String (b2a (sextet1 a b))
     (String (b2a (sextet2 b 0))
     (String pad_char EmptyString)))
  | a :: b :: c :: rest =>
      let a := Byte.to_N a in
      let b := Byte.to_N b in
      let c := Byte.to_N c in
      String (b2a (sextet0 a))
     (String (b2a (sextet1 a b))
     (String (b2a (sextet2 b c))
     (String (b2a (sextet3 c)) (b2a_base64 rest))))
  end.

(** [base64.b64encode(bs).decode()]. *)
Definition b64encode (bs : list byte) : string := b2a_base64 bs.

(** The decoder's loop state: position in the current quad, bits left
    over from it, pad characters seen in a row, bytes written so far
    (latest first). *)
Record decoder : Type := mkDecoder {
  quad_pos : nat;
  leftchar : N;
  pads : nat;
  written : list byte
}.

Definition shift_in (st : decoder) (v : N) : decoder :=
  match quad_pos st with
  | 0%nat => mkDecoder 1 v 0 (written st)
  | 1%nat => mkDecoder 2 (N.land v 15) 0
               (byte_of_N (N.lor (N.shiftl (leftchar st) 2) (N.shiftr v 4))
                  :: written st)
  | 2%nat => mkDecoder 3 (N.land v 3) 0
               (byte_of_N (N.lor (N.shiftl (leftchar st) 4) (N.shiftr v 2))
                  :: written st)
  | _ => mkDecoder 0 0 0
               (byte_of_N (N.lor (N.shiftl (leftchar st) 6) v) :: written st)
  end.

(** The loop of [binascii.a2b_base64] with [strict_mode] off. *)
Fixpoint a2b_loop (s : string) (st : decoder) : result (list byte) :=
  match s with
  | EmptyString =>
      if (quad_pos st =? 0)%nat then Ok (rev (written st))
      else Raise binascii_Error
  | String c s' =>
      if Ascii.eqb c pad_char then
        if (2 <=? quad_pos st)%nat then
          if (4 <=? quad_pos st + S (pads st))%nat then Ok (rev (written st))
          else a2b_loop s' (mkDecoder (quad_pos st) (leftchar st)
                                      (S (pads st)) (written st))
        else a2b_loop s' st
      else
        match a2b c with
        | None => a2b_loop s' st
        | Some v => a2b_loop s' (shift_in st v)
        end
  end.

Fixpoint is_ascii (s : string) : bool :=
  match s with
  | EmptyString => true
  | String c s' => (N_of_ascii c <? 128) && is_ascii s'
  end.

(** [base64.b64decode(s)] for a [str] argument. *)
Definition b64decode (s : string) : result (list byte) :=
  if is_ascii s then a2b_loop s (mkDecoder 0 0 0 [])
  else Raise ValueError.

End Base64.

(* ================================================================== *)
(** * [bytes.fromhex] *)
(* ================================================================== *)

Module Hex.
Local Open Scope N_scope.

(** [Py_ISSPACE]. *)
Definition is_space (c : ascii) : bool :=
  let n := N_of_ascii c in
  (n =? 32) || ((9 <=? n) && (n <=? 13)).

(** [_PyLong_DigitValue[c]] below 16. *)
Definition digit (c : ascii) : option N :=
  let n := N_of_ascii c in
  if (48 <=? n) && (n <=? 57) then Some (n - 48)
  else if (97 <=? n) && (n <=? 102) then Some (n - 87)
  else if (65 <=? n) && (n <=? 70) then Some (n - 55)
  else None.

(** [bytes.fromhex(s)]: white space is skipped before a pair of digits,
    anything else that is not a pair of hexadecimal digits is an error. *)
Fixpoint fromhex (s : string) : result (list byte) :=
  match s with
  | EmptyString => Ok []
  | String c s' =>
      if is_space c then fromhex s'
      else
        match digit c, s' with
        | Some top, String d s'' =>
            match digit d with
            | Some bot =>
                match fromhex s'' with
                | Ok bs => Ok (byte_of_N (N.shiftl top 4 + bot) :: bs)
                | Raise e => Raise e
                end
            | None => Raise ValueError
            end
        | _, _ => Raise ValueError
        end
  end.

End Hex.

(** [s.encode()]: a [str] is kept as its UTF-8 bytes. *)
Definition str_encode (s : string) : list byte := list_byte_of_string s.

(* ================================================================== *)
(** * The [cryptography] package, as the two modules use it *)
(* ================================================================== *)

Module Hazmat.

(** [algorithms.AES(key)] under [modes.GCM]: 128, 192 or 256 bit keys. *)
Definition valid_key_len (n : nat) : bool :=
  (n =? 16)%nat || (n =? 24)%nat || (n =? 32)%nat.

(** [modes.GCM(iv)] and [AESGCM._check_params]: 8 to 128 bytes. *)
Definition valid_iv_len (n : nat) : bool := (8 <=? n)%nat && (n <=? 128)%nat.

Definition tag_len : nat := 16.

(** [Cipher(algorithms.AES(key), modes.GCM(iv)).encryptor()], then
    [update(data) + finalize()] and [encryptor.tag]. *)
Definition cipher_gcm_encrypt (key iv data : list byte)
  : result (list byte * list byte) :=
  if negb (valid_key_len (length key)) then Raise ValueError
  else if negb (valid_iv_len (length iv)) then Raise ValueError
  else Ok (GCM.encrypt key iv data []).

(** [Cipher(algorithms.AES(key), modes.GCM(iv, tag)).decryptor()], then
    [update(ct) + finalize()]: [finalize] raises [InvalidTag]. *)
Definition cipher_gcm_decrypt (key iv tag ct : list byte)
  : result (list byte) :=
  if negb (valid_key_len (length key)) then Raise ValueError
  else if negb (valid_iv_len (length iv)) then Raise ValueError
  else if negb (length tag =? tag_len)%nat then Raise ValueError
  else match GCM.decrypt key iv ct [] tag with
       | Some data => Ok data
       | None => Raise InvalidTag
       end.

(** An [AESGCM] object holds its key. *)
Record AESGCM : Type := mkAESGCM { aead_key : list byte }.

(** [AESGCM(key)]. *)
Definition AESGCM_new (key : list byte) : result AESGCM :=
  if valid_key_len (length key) then Ok (mkAESGCM key)
  else Raise ValueError.

(** [aesgcm.encrypt(nonce, data, None)]: ciphertext, then the tag. *)
Definition AESGCM_encrypt (a : AESGCM) (nonce data : list byte)
  : result (list byte) :=
  if negb (valid_iv_len (length nonce)) then Raise ValueError
  else let ct := GCM.encrypt (aead_key a) nonce data [] in
       Ok (fst ct ++ snd ct).

(** [aesgcm.decrypt(nonce, data, None)]: the last 16 bytes are the tag. *)
Definition AESGCM_decrypt (a : AESGCM) (nonce data : list byte)
  : result (list byte) :=
  if negb (valid_iv_len (length nonce)) then Raise ValueError
  else if (length data <? tag_len)%nat then Raise InvalidTag
  else
    let n := (length data - tag_len)%nat in
    match GCM.decrypt (aead_key a) nonce (firstn n data) [] (skipn n data) with
    | Some p => Ok p
    | None => Raise InvalidTag
    end.

End Hazmat.

(* ================================================================== *)
(** * src/records/encryption.py *)
(* ================================================================== *)

Module RecordsEncryption.
Import Base64 Hazmat.

(** [@dataclass(frozen=True) class EncryptionKey]. *)
Record EncryptionKey : Type := mkEncryptionKey {
  key : list byte;
  iv : list byte
}.

Definition PBKDF2_ROUNDS : N := 100000.

(** The local [salt] of [derive_user_key]. *)
Definition salt (user_id : string) : list byte :=
  SHA256.sha256 (str_encode user_id).

Definition derive_user_key (master_key : list byte) (user_id : string)
  : list byte * list byte :=
  let dk := PBKDF2.pbkdf2_hmac_sha256 master_key (salt user_id)
                                      PBKDF2_ROUNDS 64 in
  (firstn 32 dk, skipn 32 dk).

Definition encrypt_data (data key iv : list byte) : result (string * string) :=
  (ct_tag <- cipher_gcm_encrypt key iv data ;;
   Ok (b64encode (fst ct_tag), b64encode (snd ct_tag)))%result.

Definition decrypt_data (ciphertext_b64 tag_b64 : string) (key iv : list byte)
  : result (list byte) :=
  (ct <- b64decode ciphertext_b64 ;;
   tag <- b64decode tag_b64 ;;
   cipher_gcm_decrypt key iv tag ct)%result.

(** The local [path] of [load_master_key], in world [w]. *)
Definition master_key_path (w : World) : string :=
  Os.path_join (cwd w) "master.key".


Definition load_master_key : Py (list byte) :=
  (d <- Os.getcwd ;;
   let path := Os.path_join d "master.key" in
   ex <- Os.path_exists path ;;
   if ex : bool then Os.read_file path
   else
     key <- Os.urandom 32 ;;
     _ <- Os.write_file path key ;;
     ret key)%py.

Definition get_user_encryption_key (user_id : string) : Py EncryptionKey :=
  (master <- load_master_key ;;
   let k_iv := derive_user_key master user_id in
   ret (mkEncryptionKey (fst k_iv) (snd k_iv)))%py.

End RecordsEncryption.

(* ================================================================== *)
(** * src/security/crypto.py *)
(* ================================================================== *)

Module SecurityCrypto.
Import Hazmat.

Definition KEY_SIZE : nat := 32.

Definition MASTER_KEY_ENV_VAR : string := "HYPERHEALTH_MASTER_KEY".

Definition _generate_random_bytes (n : nat) : Py (list byte) := Os.urandom n.

Definition _get_master_key : Py (list byte) :=
  (key <- Os.getenv MASTER_KEY_ENV_VAR ;;
   match key with
   | None => raise RuntimeError
   | Some k => lift (Hex.fromhex k)
   end)%py.

Definition encrypt_data (plaintext : list byte) (nonce : option (list byte))
  : Py (list byte * list byte) :=
  (nonce <- match nonce with
            | None => _generate_random_bytes 12
            | Some n => ret n
            end ;;
   mk <- _get_master_key ;;
   aesgcm <- lift (AESGCM_new mk) ;;
   ciphertext <- lift (AESGCM_encrypt aesgcm nonce plaintext) ;;
   ret (ciphertext, nonce))%py.

Definition decrypt_data (ciphertext nonce : list byte) : Py (list byte) :=
  (mk <- _get_master_key ;;
   aesgcm <- lift (AESGCM_new mk) ;;
   lift (AESGCM_decrypt aesgcm nonce ciphertext))%py.

End SecurityCrypto.

(* ================================================================== *)
(** * src/phone/__init__.py *)
(* ================================================================== *)

Module Phone.

Definition CALL_TIMEOUT_SECONDS : Z := 300.

(** [context] is [None] or a reference to a [dict] on the heap. *)
Definition start_call (phone_number : string) (context : option nat) : Py bool :=
  ret true.

End Phone.

(* ================================================================== *)
(** * src/api/__init__.py *)
(* ================================================================== *)

Module Api.

(** [app] is a reference to the application object on the heap; a
    function body of [pass] returns [None]. *)
Definition register_routes (app : nat) : Py pyobj :=
  ret PyNone.

End Api.

(* ================================================================== *)
(** * src/config/settings.py *)
(* ================================================================== *)

Module Settings.

Definition PHONE_SYSTEM_ENABLED : bool := true.
Definition RECORDS_STORAGE_PATH : string := "data/records".

Definition AES_GCM_KEY_SIZE : nat := 32.
Definition PBKDF2_ITERATIONS : N := 100000.
Definition MASTER_KEY_ROTATION_DAYS : nat := 90.

Definition API_BASE_URL : string := "https://api.hyperhealth.local".
Definition PHONE_API_ENDPOINT : string := API_BASE_URL ++ "/phone".
Definition RECORDS_API_ENDPOINT : string := API_BASE_URL ++ "/records".

Definition DEBUG_MODE : bool := false.

End Settings.

(* ================================================================== *)
(** * Concrete worlds and inputs used in the examples *)
(* ================================================================== *)

Module Sample.

(** A process with a 256-bit master key in its environment, an empty
    working directory and an entropy pool that counts 0, 1, 2, ... *)
Definition hexkey : string :=
  "000102030405060708090a0b0c0d0e0f101112131415161718191a1b1c1d1e1f".

Definition world : World :=
  mkWorld (fun name => if string_eqb name SecurityCrypto.MASTER_KEY_ENV_VAR
                       then Some hexkey else None)
          "/srv/hyperhealth"
          (fun _ => None)
          (fun i => byte_of_N (N.of_nat i))
          0
          (fun _ => None)
          [].

(** The same process without the master key variable. *)
Definition world_no_key : World :=
  mkWorld (fun _ => None) (cwd world) (files world) (entropy world)
          (drawn world) (heap world) (outbound world).

(** The same process with a master key variable that is not hexadecimal. *)
Definition world_bad_key : World :=
  mkWorld (fun name => if string_eqb name SecurityCrypto.MASTER_KEY_ENV_VAR
                       then Some "not-a-hex-key"%string else None)
          (cwd world) (files world) (entropy world)
          (drawn world) (heap world) (outbound world).

(** The key that [hexkey] spells. *)
Definition master : list byte :=
  bytes_of_N 32 0x000102030405060708090a0b0c0d0e0f101112131415161718191a1b1c1d1e1f.


(** [world] with a directory named [master.key] in the working directory. *)
Definition world_key_dir : World :=
  mkWorld (environ world) (cwd world)
          (fun p => if string_eqb p "/srv/hyperhealth/master.key"
                    then Some Dir else None)
          (entropy world) (drawn world) (heap world) (outbound world).

(** [world] with a master key variable that spells four bytes only. *)
Definition world_small_key : World :=
  mkWorld (fun name => if string_eqb name SecurityCrypto.MASTER_KEY_ENV_VAR
                       then Some "00010203"%string else None)
          (cwd world) (files world) (entropy world)
          (drawn world) (heap world) (outbound world).

Definition key32 : list byte := bytes_of_N 32 0.
Definition iv32 : list byte := bytes_of_N 32 1.
Definition nonce12 : list byte := bytes_of_N 12 2.
Definition hello : list byte := list_byte_of_string "hello".

(** A record, what [SecurityCrypto.encrypt_data] makes of it in [world]
    under [nonce12] (32 bytes of ciphertext, then the tag), and a blob
    that differs from it in the first bit of the first ciphertext block
    and in the second ciphertext block, with the same tag. *)
Definition record_text : list byte :=
  list_byte_of_string "Patient 0042: penicillin allergy".

Definition sealed : list byte :=
  bytes_of_N 32 0x99105a14d125aef1893d08234d619be9e87e56b982c566c1ae1c3e5614a93cfd
  ++ bytes_of_N 16 0x9d74d65357906af7a426758e1a6c6149.



End Sample.

(* ================================================================== *)
(** * Properties of the byte and block operations *)
(* ================================================================== *)

Section ByteFacts.

Lemma to_N_byte_of_N (n : N) : Byte.to_N (byte_of_N n) = (n mod 256)%N.
Proof.
  unfold byte_of_N.
  destruct (Byte.of_N (n mod 256)) as [b|] eqn:E.
  - now apply Byte.to_of_N in E.
  - apply Byte.of_N_None_iff in E.
    pose proof (N.mod_lt n 256). lia.
Qed.

Lemma byte_of_N_to_N (b : byte) : byte_of_N (Byte.to_N b) = b.
Proof.
  unfold byte_of_N.
  rewrite N.mod_small by (pose proof (Byte.to_N_bounded b); lia).
  now rewrite Byte.of_to_N.
Qed.

Lemma all_bytes_complete (b : byte) : In b all_bytes.
Proof.
  assert (H : existsb (Byte.eqb b) all_bytes = true)
    by (destruct b; vm_compute; reflexivity).
  apply existsb_exists in H. destruct H as [x [Hin Heq]].
  apply Byte.byte_dec_bl in Heq. now subst.
Qed.

(** A property checked on every byte holds of every byte. *)
Lemma forall_byte (P : byte -> bool) :
  forallb P all_bytes = true -> forall b, P b = true.
Proof.
  intros H b. rewrite forallb_forall in H. apply H, all_bytes_complete.
Qed.

Lemma forall_byte2 (P : byte -> byte -> bool) :
  forallb (fun a => forallb (P a) all_bytes) all_bytes = true ->
  forall a b, P a b = true.
Proof.
  intros H a b.
  apply (forall_byte (P a)).
  apply (forall_byte (fun a => forallb (P a) all_bytes) H).
Qed.


Lemma xor_bytes_length (d ks : list byte) :
  length d <= length ks -> length (xor_bytes d ks) = length d.
Proof.
  revert ks. induction d as [|x d IH]; intros [|k ks] H; simpl in *;
    try lia; try reflexivity.
  rewrite IH by lia. reflexivity.
Qed.


Lemma bytes_of_N_length (len : nat) (n : N) : length (bytes_of_N len n) = len.
Proof. induction len; simpl; congruence. Qed.




Lemma nchunks_covers (n len : nat) : 0 < n -> len <= n * nchunks n len.
Proof.
  intros Hn. unfold nchunks.
  pose proof (Nat.div_mod_eq (len + (n - 1)) n) as E.
  pose proof (Nat.mod_upper_bound (len + (n - 1)) n). lia.
Qed.

Lemma firstn_skipn_app_exact {A} (l1 l2 : list A) (n : nat) :
  length l1 = n -> firstn n (l1 ++ l2) = l1 /\ skipn n (l1 ++ l2) = l2.
Proof.
  intros <-. split.
  - now rewrite firstn_app, Nat.sub_diag, firstn_all, firstn_O, app_nil_r.
  - now rewrite skipn_app, Nat.sub_diag, skipn_all, skipn_O.
Qed.

Lemma Ok_inj {A} (a b : A) : Ok a = Ok b -> a = b.
Proof. now intros [= ->]. Qed.

Lemma pair_inj {A B} (a c : A) (b d : B) : (a, b) = (c, d) -> a = c /\ b = d.
Proof. now intros [= -> ->]. Qed.

End ByteFacts.

(* ================================================================== *)
(** * Properties of GCM *)
(* ================================================================== *)

Arguments AES.encrypt_block : simpl never.
Arguments GCM.ghash : simpl never.
Arguments SHA256.sha256 : simpl never.
Arguments HMAC.hmac_sha256 : simpl never.

Section GCMFacts.

Variables (key iv : list byte).

Lemma flat_map_length_const {A B} (f : A -> list B) (k : nat) (l : list A) :
  (forall x, length (f x) = k) -> length (flat_map f l) = k * length l.
Proof.
  intros Hf. induction l as [|x l IH]; cbn [flat_map length].
  - lia.
  - rewrite length_app, Hf, IH. lia.
Qed.

Lemma keystream_length (cb : N) (n : nat) :
  length (GCM.keystream key cb n) = 16 * n.
Proof.
  unfold GCM.keystream.
  rewrite (flat_map_length_const _ 16), length_seq; [reflexivity|].
  intros x. apply bytes_of_N_length.
Qed.

Lemma keystream_covers (cb : N) (x : list byte) :
  length x <= length (GCM.keystream key cb (nchunks 16 (length x))).
Proof. rewrite keystream_length. apply nchunks_covers. lia. Qed.

Lemma gctr_length (icb : N) (x : list byte) :
  length (GCM.gctr key icb x) = length x.
Proof. unfold GCM.gctr. apply xor_bytes_length, keystream_covers. Qed.


Lemma tag_length (a c : list byte) : length (GCM.tag key iv a c) = 16.
Proof. unfold GCM.tag. apply bytes_of_N_length. Qed.

Lemma encrypt_fst_length (p a : list byte) :
  length (fst (GCM.encrypt key iv p a)) = length p.
Proof. apply gctr_length. Qed.

Lemma encrypt_snd (p a : list byte) :
  snd (GCM.encrypt key iv p a) = GCM.tag key iv a (fst (GCM.encrypt key iv p a)).
Proof. reflexivity. Qed.




End GCMFacts.

(* ================================================================== *)
(** * Properties of base64 *)
(* ================================================================== *)

Section Base64Facts.
Import Base64.
Local Open Scope N_scope.

Lemma list_ind3 {A} (P : list A -> Prop) :
  P [] -> (forall a, P [a]) -> (forall a b, P [a; b]) ->
  (forall a b c l, P l -> P (a :: b :: c :: l)) ->
  forall l, P l.
Proof.
  intros H0 H1 H2 H3. fix IH 1.
  intros [|a [|b [|c l]]].
  - exact H0.
  - apply H1.
  - apply H2.
  - apply H3, IH.
Qed.

(** The decoding table inverts the encoding table, whose characters are
    ASCII and never the pad character. *)
Lemma b2a_ok (i : N) :
  i < 64 ->
  a2b (b2a i) = Some i /\ Ascii.eqb (b2a i) pad_char = false
  /\ (N_of_ascii (b2a i) <? 128) = true.
Proof.
  intros Hi.
  assert (Hin : In (N.to_nat i) (seq 0 64)) by (apply in_seq; lia).
  assert (Hall : forallb (fun n => let i := N.of_nat n in
                   match a2b (b2a i) with Some j => j =? i | None => false end
                   && negb (Ascii.eqb (b2a i) pad_char)
                   && (N_of_ascii (b2a i) <? 128)) (seq 0 64) = true)
    by (vm_compute; reflexivity).
  rewrite forallb_forall in Hall. specialize (Hall _ Hin). cbv zeta in Hall.
  rewrite N2Nat.id in Hall.
  apply andb_true_iff in Hall. destruct Hall as [Hall H3].
  apply andb_true_iff in Hall. destruct Hall as [H1 H2].
  destruct (a2b (b2a i)) as [j|]; [|discriminate].
  apply N.eqb_eq in H1. apply negb_true_iff in H2. subst. auto.
Qed.

Lemma sextets_bounded (a b : byte) :
  sextet0 (Byte.to_N a) < 64 /\ sextet1 (Byte.to_N a) (Byte.to_N b) < 64
  /\ sextet2 (Byte.to_N a) (Byte.to_N b) < 64 /\ sextet3 (Byte.to_N a) < 64.
Proof.
  assert (H := forall_byte2
    (fun a b => (sextet0 (Byte.to_N a) <? 64) && (sextet1 (Byte.to_N a) (Byte.to_N b) <? 64)
                && (sextet2 (Byte.to_N a) (Byte.to_N b) <? 64) && (sextet3 (Byte.to_N a) <? 64))).
  specialize (H ltac:(vm_compute; reflexivity) a b).
  repeat (apply andb_true_iff in H; destruct H as [H ?]).
  repeat match goal with E : (_ <? _) = true |- _ => apply N.ltb_lt in E end.
  repeat split; assumption.
Qed.

(** What the decoder rebuilds from the sextets. *)
Lemma sextets_rebuild (a b : byte) :
  byte_of_N (N.lor (N.shiftl (sextet0 (Byte.to_N a)) 2)
                   (N.shiftr (sextet1 (Byte.to_N a) (Byte.to_N b)) 4)) = a
  /\ N.land (sextet1 (Byte.to_N a) (Byte.to_N b)) 15 = N.shiftr (Byte.to_N b) 4
  /\ byte_of_N (N.lor (N.shiftl (N.shiftr (Byte.to_N a) 4) 4)
                      (N.shiftr (sextet2 (Byte.to_N a) (Byte.to_N b)) 2)) = a
  /\ byte_of_N (N.lor (N.shiftl (N.land (sextet2 (Byte.to_N a) (Byte.to_N b)) 3) 6)
                      (sextet3 (Byte.to_N b))) = b.
Proof.
  assert (H := forall_byte2
    (fun a b =>
       Byte.eqb (byte_of_N (N.lor (N.shiftl (sextet0 (Byte.to_N a)) 2)
                                  (N.shiftr (sextet1 (Byte.to_N a) (Byte.to_N b)) 4))) a
       && (N.land (sextet1 (Byte.to_N a) (Byte.to_N b)) 15 =? N.shiftr (Byte.to_N b) 4)
       && Byte.eqb (byte_of_N (N.lor (N.shiftl (N.shiftr (Byte.to_N a) 4) 4)
                                     (N.shiftr (sextet2 (Byte.to_N a) (Byte.to_N b)) 2))) a
       && Byte.eqb (byte_of_N (N.lor (N.shiftl (N.land (sextet2 (Byte.to_N a) (Byte.to_N b)) 3) 6)
                                     (sextet3 (Byte.to_N b)))) b)).
  specialize (H ltac:(vm_compute; reflexivity) a b).
  repeat (apply andb_true_iff in H; destruct H as [H ?]).
  repeat match goal with
         | E : Byte.eqb _ _ = true |- _ => apply Byte.byte_dec_bl in E
         | E : (_ =? _) = true |- _ => apply N.eqb_eq in E
         end.
  repeat split; assumption.
Qed.

(** One step of the decoder on an alphabet character. *)
Lemma a2b_loop_sextet (v : N) (s : string) (st : decoder) :
  v < 64 ->
  a2b_loop (String (b2a v) s) st = a2b_loop s (shift_in st v).
Proof.
  intros Hv. destruct (b2a_ok _ Hv) as (H1 & H2 & _).
  cbn [a2b_loop]. now rewrite H2, H1.
Qed.

Ltac decode_sextet H :=
  rewrite (a2b_loop_sextet _ _ _ H); cbn [shift_in quad_pos leftchar written].

Lemma a2b_loop_b2a (bs : list byte) :
  forall (l : N) (p : nat) (w : list byte),
    a2b_loop (b2a_base64 bs) (mkDecoder 0 l p w) = Ok (rev w ++ bs).
Proof.
  induction bs as [|a|a b|a b c bs IH] using list_ind3; intros l p w.
  - cbn. now rewrite app_nil_r.
  - cbn [b2a_base64]. cbv zeta.
    destruct (sextets_bounded a x00) as (B0 & B1 & _).
    decode_sextet B0. decode_sextet B1.
    destruct (sextets_rebuild a x00) as (R & _).
    rewrite R. reflexivity.
  - cbn [b2a_base64]. cbv zeta.
    destruct (sextets_bounded a b) as (B0 & B1 & _).
    destruct (sextets_bounded b x00) as (_ & _ & B2 & _).
    decode_sextet B0. decode_sextet B1. decode_sextet B2.
    destruct (sextets_rebuild a b) as (R1 & R2 & _).
    destruct (sextets_rebuild b x00) as (_ & _ & R3 & _).
    rewrite R1, R2, R3. cbn. now rewrite <- !app_assoc.
  - cbn [b2a_base64]. cbv zeta.
    destruct (sextets_bounded a b) as (B0 & B1 & _).
    destruct (sextets_bounded b c) as (_ & _ & B2 & _).
    destruct (sextets_bounded c c) as (_ & _ & _ & B3).
    decode_sextet B0. decode_sextet B1. decode_sextet B2. decode_sextet B3.
    destruct (sextets_rebuild a b) as (R1 & R2 & _).
    destruct (sextets_rebuild b c) as (_ & _ & R3 & R4).
    rewrite R1, R2, R3, R4, IH. cbn [rev].
    now rewrite <- !app_assoc.
Qed.

Ltac ascii_sextet H :=
  let A := fresh "A" in
  destruct (b2a_ok _ H) as (_ & _ & A); rewrite A; clear A.

Lemma is_ascii_b2a (bs : list byte) : is_ascii (b2a_base64 bs) = true.
Proof.
  induction bs as [|a|a b|a b c bs IH] using list_ind3.
  - reflexivity.
  - cbn [b2a_base64 is_ascii]. cbv zeta.
    destruct (sextets_bounded a x00) as (B0 & B1 & _).
    change (Byte.to_N x00) with 0%N in B1.
    ascii_sextet B0. ascii_sextet B1. reflexivity.
  - cbn [b2a_base64 is_ascii]. cbv zeta.
    destruct (sextets_bounded a b) as (B0 & B1 & _).
    destruct (sextets_bounded b x00) as (_ & _ & B2 & _).
    change (Byte.to_N x00) with 0%N in B2.
    ascii_sextet B0. ascii_sextet B1. ascii_sextet B2. reflexivity.
  - cbn [b2a_base64 is_ascii]. cbv zeta.
    destruct (sextets_bounded a b) as (B0 & B1 & _).
    destruct (sextets_bounded b c) as (_ & _ & B2 & _).
    destruct (sextets_bounded c c) as (_ & _ & _ & B3).
    ascii_sextet B0. ascii_sextet B1. ascii_sextet B2. ascii_sextet B3.
    now rewrite IH.
Qed.

(** [base64.b64decode(base64.b64encode(bs).decode()) == bs]. *)
Lemma b64decode_b64encode (bs : list byte) : b64decode (b64encode bs) = Ok bs.
Proof.
  unfold b64decode, b64encode.
  now rewrite is_ascii_b2a, a2b_loop_b2a.
Qed.

End Base64Facts.

(* ================================================================== *)
(** * Properties of SHA-256, HMAC and PBKDF2 *)
(* ================================================================== *)

Section KdfFacts.

Lemma digest_bytes_length (h : SHA256.hash) :
  length (SHA256.digest_bytes h) = 32.
Proof.
  unfold SHA256.digest_bytes.
  repeat rewrite length_app. repeat rewrite bytes_of_N_length. reflexivity.
Qed.

Lemma sha256_length (msg : list byte) : length (SHA256.sha256 msg) = 32.
Proof. unfold SHA256.sha256. apply digest_bytes_length. Qed.

Lemma hmac_sha256_length (k msg : list byte) :
  length (HMAC.hmac_sha256 k msg) = 32.
Proof. unfold HMAC.hmac_sha256. apply sha256_length. Qed.

Lemma F_length (password salt : list byte) (c : N) (i : nat) :
  length (PBKDF2.F password salt c i) = 32.
Proof.
  unfold PBKDF2.F.
  set (step := fun ut : list byte * list byte => _).
  set (u1 := HMAC.hmac_sha256 password _).
  assert (H : length (fst (N.iter (c - 1) step (u1, u1))) = 32
              /\ length (snd (N.iter (c - 1) step (u1, u1))) = 32).
  { apply N.iter_invariant.
    - intros [u t] [Hu Ht]. unfold step. cbn [fst snd]. split.
      + apply hmac_sha256_length.
      + rewrite xor_bytes_length; [exact Ht|].
        rewrite hmac_sha256_length. cbn [snd] in Ht. lia.
    - cbn [fst snd]. split; apply hmac_sha256_length. }
  apply H.
Qed.

Lemma pbkdf2_length (password salt : list byte) (c : N) (dklen : nat) :
  length (PBKDF2.pbkdf2_hmac_sha256 password salt c dklen) = dklen.
Proof.
  unfold PBKDF2.pbkdf2_hmac_sha256.
  rewrite length_firstn.
  rewrite (flat_map_length_const _ 32), length_seq by (intros; apply F_length).
  pose proof (nchunks_covers 32 dklen). lia.
Qed.

End KdfFacts.

(* ================================================================== *)
(** * The two pairs of helpers: what they compute *)
(* ================================================================== *)

Section RecordsFacts.
Import RecordsEncryption Hazmat Base64.

Variables (key iv : list byte).
Hypothesis key_ok : valid_key_len (length key) = true.
Hypothesis iv_ok : valid_iv_len (length iv) = true.

Lemma records_encrypt_data (data : list byte) :
  encrypt_data data key iv
  = Ok (b64encode (fst (GCM.encrypt key iv data [])),
        b64encode (snd (GCM.encrypt key iv data []))).
Proof.
  unfold encrypt_data, cipher_gcm_encrypt.
  now rewrite key_ok, iv_ok.
Qed.



End RecordsFacts.

Section SecurityFacts.
Import SecurityCrypto Hazmat.

Variables (w : World) (hexkey : string) (mk : list byte).
Hypothesis env_set : environ w MASTER_KEY_ENV_VAR = Some hexkey.
Hypothesis hex_ok : Hex.fromhex hexkey = Ok mk.
Hypothesis key_ok : valid_key_len (length mk) = true.

Lemma get_master_key_set : _get_master_key w = (Ok mk, w).
Proof.
  unfold _get_master_key, bind, Os.getenv, lift.
  now rewrite env_set, hex_ok.
Qed.

Lemma security_encrypt_data_nonce (plaintext nonce : list byte) :
  valid_iv_len (length nonce) = true ->
  encrypt_data plaintext (Some nonce) w
  = (Ok (fst (GCM.encrypt mk nonce plaintext [])
           ++ snd (GCM.encrypt mk nonce plaintext []), nonce), w).
Proof.
  intros Hn. unfold encrypt_data, bind at 1, ret at 1.
  unfold bind at 1. rewrite get_master_key_set.
  unfold bind, lift, ret, AESGCM_new, AESGCM_encrypt.
  rewrite key_ok. cbn [aead_key]. now rewrite Hn.
Qed.



End SecurityFacts.

Section SecurityNonce.
Import SecurityCrypto Hazmat.

(** Without a nonce, [encrypt_data] draws 12 bytes from the entropy pool
    and goes on as if they had been supplied. *)
Lemma security_encrypt_data_fresh (w : World) (plaintext : list byte) :
  encrypt_data plaintext None w
  = encrypt_data plaintext (Some (map (entropy w) (seq (drawn w) 12)))
                 (Os.draw 12 w).
Proof. reflexivity. Qed.


End SecurityNonce.

(* ================================================================== *)
(** * C1: decryption inverts encryption *)
(* ================================================================== *)



(* ================================================================== *)
(** * C2: what decryption detects *)
(* ================================================================== *)




(* ================================================================== *)
(** * C3: the master key of the Security variant *)
(* ================================================================== *)

Section MasterKeyFacts.
Import SecurityCrypto Hazmat.

(** [bytes.fromhex] fails with [ValueError] only. *)
Lemma fromhex_error (s : string) (e : exn) :
  Hex.fromhex s = Raise e -> e = ValueError.
Proof.
  remember (String.length s) as n eqn:Hn. revert s Hn e.
  induction n as [n IH] using (well_founded_induction lt_wf).
  intros [|c s] Hn e; cbn [Hex.fromhex]; [discriminate|].
  cbn [String.length] in Hn.
  destruct (Hex.is_space c).
  - apply (IH (String.length s)); [lia | reflexivity].
  - destruct (Hex.digit c) as [top|]; [|now intros [= <-]].
    destruct s as [|d s]; [now intros [= <-]|].
    destruct (Hex.digit d) as [bot|]; [|now intros [= <-]].
    destruct (Hex.fromhex s) as [bs|e'] eqn:E; [discriminate|].
    intros [= <-]. apply (IH (String.length s)) with (s := s);
      [cbn [String.length] in Hn; lia | reflexivity | exact E].
Qed.

Lemma get_master_key_unset (w : World) :
  environ w MASTER_KEY_ENV_VAR = None ->
  _get_master_key w = (Raise RuntimeError, w).
Proof.
  intros H. unfold _get_master_key, bind, Os.getenv, raise. now rewrite H.
Qed.

Lemma get_master_key_bad_hex (w : World) (hexkey : string) (e : exn) :
  environ w MASTER_KEY_ENV_VAR = Some hexkey ->
  Hex.fromhex hexkey = Raise e ->
  _get_master_key w = (Raise ValueError, w).
Proof.
  intros H1 H2. unfold _get_master_key, bind, Os.getenv, lift.
  rewrite H1, H2. now rewrite (fromhex_error _ _ H2).
Qed.

(** [_get_master_key] never changes the world. *)
Lemma get_master_key_world (w : World) : snd (_get_master_key w) = w.
Proof.
  unfold _get_master_key, bind, Os.getenv, lift, raise.
  now destruct (environ w MASTER_KEY_ENV_VAR).
Qed.

(** With a supplied nonce [encrypt_data] fails as [_get_master_key] does. *)
Lemma encrypt_data_key_failure (w : World) (e : exn) (plaintext n : list byte) :
  _get_master_key w = (Raise e, w) ->
  encrypt_data plaintext (Some n) w = (Raise e, w).
Proof.
  intros H. unfold encrypt_data, bind at 1, ret at 1. unfold bind at 1.
  now rewrite H.
Qed.

Lemma decrypt_data_key_failure (w : World) (e : exn) (ciphertext n : list byte) :
  _get_master_key w = (Raise e, w) ->
  decrypt_data ciphertext n w = (Raise e, w).
Proof.
  intros H. unfold decrypt_data, bind at 1. now rewrite H.
Qed.

(** The world after [encrypt_data]: only entropy may have been drawn. *)
Lemma encrypt_data_world (w : World) (plaintext : list byte)
      (nonce : option (list byte)) :
  snd (encrypt_data plaintext nonce w)
  = match nonce with Some _ => w | None => Os.draw 12 w end.
Proof.
  assert (G : forall v n, snd (encrypt_data plaintext (Some n) v) = v).
  { intros v n. unfold encrypt_data, bind at 1, ret at 1. unfold bind at 1.
    pose proof (get_master_key_world v) as K.
    destruct (_get_master_key v) as [[mk|e] v']; cbn [snd] in K; subst v';
      [|reflexivity].
    unfold bind, lift, ret, AESGCM_new, AESGCM_encrypt.
    destruct (valid_key_len (length mk)); [|reflexivity].
    now destruct (negb (valid_iv_len (length n))). }
  destruct nonce as [n|]; [apply G|].
  rewrite security_encrypt_data_fresh. apply G.
Qed.

Lemma decrypt_data_world (w : World) (ciphertext nonce : list byte) :
  snd (decrypt_data ciphertext nonce w) = w.
Proof.
  unfold decrypt_data, bind at 1.
  pose proof (get_master_key_world w) as K.
  destruct (_get_master_key w) as [[mk|e] v']; cbn [snd] in K; subst v';
    [|reflexivity].
  unfold bind, lift, AESGCM_new, AESGCM_decrypt.
  destruct (valid_key_len (length mk)); [|reflexivity].
  destruct (negb (valid_iv_len (length nonce))); [reflexivity|].
  destruct (length ciphertext <? tag_len); [reflexivity|].
  now destruct (GCM.decrypt _ _ _ _ _).
Qed.

End MasterKeyFacts.

(** C3.  In the Security variant both operations read the master key
    from the environment when they are called.  If the variable is
    absent, [encrypt_data] and [decrypt_data] raise [RuntimeError]; if
    its value is not hexadecimal, they raise the [ValueError] of
    [bytes.fromhex].  No key is generated or stored: whatever the
    outcome, [decrypt_data] leaves the world as it was and [encrypt_data]
    changes nothing but the amount of entropy drawn (environment and
    files are as before). *)
Theorem C3_master_key_required
  (w : World) (plaintext ciphertext nonce : list byte)
  (opt_nonce : option (list byte)) :
  (environ w SecurityCrypto.MASTER_KEY_ENV_VAR = None ->
   fst (SecurityCrypto.encrypt_data plaintext opt_nonce w) = Raise RuntimeError
   /\ SecurityCrypto.decrypt_data ciphertext nonce w = (Raise RuntimeError, w))
  /\ (forall hexkey e,
         environ w SecurityCrypto.MASTER_KEY_ENV_VAR = Some hexkey ->
         Hex.fromhex hexkey = Raise e ->
         e = ValueError
         /\ fst (SecurityCrypto.encrypt_data plaintext opt_nonce w) = Raise ValueError
         /\ SecurityCrypto.decrypt_data ciphertext nonce w = (Raise ValueError, w))
  /\ snd (SecurityCrypto.decrypt_data ciphertext nonce w) = w
  /\ snd (SecurityCrypto.encrypt_data plaintext opt_nonce w)
     = match opt_nonce with Some _ => w | None => Os.draw 12 w end
  /\ environ (snd (SecurityCrypto.encrypt_data plaintext opt_nonce w)) = environ w
  /\ files (snd (SecurityCrypto.encrypt_data plaintext opt_nonce w)) = files w.
Proof.
  refine (conj _ (conj _ (conj _ (conj _ (conj _ _))))).
  - intros H. split.
    + destruct opt_nonce as [n|].
      * now rewrite (encrypt_data_key_failure w RuntimeError plaintext n
                       (get_master_key_unset w H)).
      * rewrite security_encrypt_data_fresh.
        now rewrite (encrypt_data_key_failure (Os.draw 12 w) RuntimeError
                       plaintext _ (get_master_key_unset (Os.draw 12 w) H)).
    + apply decrypt_data_key_failure, get_master_key_unset, H.
  - intros hexkey e H1 H2. split; [apply (fromhex_error _ _ H2)|]. split.
    + destruct opt_nonce as [n|].
      * now rewrite (encrypt_data_key_failure w ValueError plaintext n
                       (get_master_key_bad_hex w hexkey e H1 H2)).
      * rewrite security_encrypt_data_fresh.
        now rewrite (encrypt_data_key_failure (Os.draw 12 w) ValueError
                       plaintext _
                       (get_master_key_bad_hex (Os.draw 12 w) hexkey e H1 H2)).
    + apply decrypt_data_key_failure. apply (get_master_key_bad_hex w hexkey e H1 H2).
  - apply decrypt_data_world.
  - apply encrypt_data_world.
  - rewrite encrypt_data_world. now destruct opt_nonce.
  - rewrite encrypt_data_world. now destruct opt_nonce.
Qed.

Lemma C3_master_key_required_witness :
  (fst (SecurityCrypto.encrypt_data Sample.hello None Sample.world_no_key)
   = Raise RuntimeError
   /\ SecurityCrypto.decrypt_data Sample.sealed Sample.nonce12 Sample.world_no_key
      = (Raise RuntimeError, Sample.world_no_key))
  /\ (fst (SecurityCrypto.encrypt_data Sample.hello None Sample.world_bad_key)
      = Raise ValueError
      /\ SecurityCrypto.decrypt_data Sample.sealed Sample.nonce12
                                     Sample.world_bad_key
         = (Raise ValueError, Sample.world_bad_key)).
Proof.
  split.
  - apply (C3_master_key_required Sample.world_no_key Sample.hello
             Sample.sealed Sample.nonce12 None).
    reflexivity.
  - apply (proj1 (proj2 (C3_master_key_required Sample.world_bad_key
             Sample.hello Sample.sealed Sample.nonce12 None))
             "not-a-hex-key"%string ValueError);
      reflexivity.
Defined.

(* ================================================================== *)
(** * C4: per-user key derivation *)
(* ================================================================== *)

Section Pigeonhole.







End Pigeonhole.

Section DeriveFacts.
Import RecordsEncryption.

Lemma salt_length (user_id : string) : length (salt user_id) = 32.
Proof. apply sha256_length. Qed.


Lemma derive_user_key_parts (master_key : list byte) (user_id : string) :
  fst (derive_user_key master_key user_id)
    ++ snd (derive_user_key master_key user_id)
  = PBKDF2.pbkdf2_hmac_sha256 master_key (salt user_id) PBKDF2_ROUNDS 64.
Proof. unfold derive_user_key. cbn [fst snd]. apply firstn_skipn. Qed.

Lemma derive_user_key_lengths (master_key : list byte) (user_id : string) :
  length (fst (derive_user_key master_key user_id)) = 32
  /\ length (snd (derive_user_key master_key user_id)) = 32.
Proof.
  pose proof (pbkdf2_length master_key (salt user_id) PBKDF2_ROUNDS 64) as L.
  unfold derive_user_key. cbn [fst snd].
  rewrite length_firstn, length_skipn, L. split; reflexivity.
Qed.

End DeriveFacts.




(* ================================================================== *)
(** * C5, C6: the master key file of the Records variant *)
(* ================================================================== *)

Section MasterKeyFile.
Import RecordsEncryption.






End MasterKeyFile.






(* ================================================================== *)
(** * C7, C10: what the Security variant's [encrypt_data] returns *)
(* ================================================================== *)





(* ================================================================== *)
(** * C8, C9: the stubs *)
(* ================================================================== *)

(** C8.  For every phone number and every context (none, or a
    dictionary on the heap), [start_call] returns [True] and leaves the
    world as it was: nothing is sent to the network, no object, file or
    variable changes, no entropy is drawn. *)
Theorem C8_start_call_stub (phone_number : string) (context : option nat)
        (w : World) :
  Phone.start_call phone_number context w = (Ok true, w)
  /\ outbound (snd (Phone.start_call phone_number context w)) = outbound w
  /\ heap (snd (Phone.start_call phone_number context w)) = heap w.
Proof. repeat split. Qed.

(** C9.  For every application object, [register_routes] does nothing:
    it returns [None] and leaves the world, with the application object
    on its heap, exactly as it was. *)
Theorem C9_register_routes_noop (app : nat) (w : World) :
  Api.register_routes app w = (Ok PyNone, w)
  /\ heap (snd (Api.register_routes app w)) app = heap w app.
Proof. split; reflexivity. Qed.

(* ================================================================== *)
(** * Known answers: the primitives against OpenSSL and hashlib *)
(* ================================================================== *)

(** FIPS 197, appendix C.3: AES-256. *)
Example aes256_known_answer :
  AES.encrypt_block
    (bytes_of_N 32 0x000102030405060708090a0b0c0d0e0f101112131415161718191a1b1c1d1e1f)
    0x00112233445566778899aabbccddeeff
  = 0x8ea2b7ca516745bfeafc49904b496089%N.
Proof. vm_compute. reflexivity. Qed.

(** AES-256-GCM with a 12-byte IV (all zero key, IV and block). *)
Example gcm_known_answer_iv12 :
  GCM.encrypt (bytes_of_N 32 0) (bytes_of_N 12 0) (bytes_of_N 16 0) []
  = (bytes_of_N 16 0xcea7403d4d606b6e074ec5d3baf39d18,
     bytes_of_N 16 0xd0d1c8a799996bf0265b98b5d48ab919).
Proof. vm_compute. reflexivity. Qed.

(** AES-256-GCM with a 32-byte IV, as the Records variant uses it. *)
Example gcm_known_answer_iv32 :
  GCM.encrypt
    (bytes_of_N 32 0x000102030405060708090a0b0c0d0e0f101112131415161718191a1b1c1d1e1f)
    (bytes_of_N 32 0xa0a1a2a3a4a5a6a7a8a9aaabacadaeafb0b1b2b3b4b5b6b7b8b9babbbcbdbebf)
    (list_byte_of_string "hello world hello world hello world !") []
  = (bytes_of_N 37 0xc1dd9eeaad9f69aa99fa723190f9c9d0791068900c89fbc264f530f1effa97a378f455a892,
     bytes_of_N 16 0xe2f3b3f39a5d785aa04f9b31e17da065).
Proof. vm_compute. reflexivity. Qed.

(** [hashlib.sha256(b"abc")]. *)
Example sha256_known_answer :
  SHA256.sha256 (list_byte_of_string "abc")
  = bytes_of_N 32 0xba7816bf8f01cfea414140de5dae2223b00361a396177a9cb410ff61f20015ad.
Proof. vm_compute. reflexivity. Qed.

(** [hmac.new(b"key", msg, "sha256")]. *)
Example hmac_known_answer :
  HMAC.hmac_sha256 (list_byte_of_string "key")
    (list_byte_of_string "The quick brown fox jumps over the lazy dog")
  = bytes_of_N 32 0xf7bc83f430538424b13298e6aa6fb143ef4d59a14946175997479dbc2d1a3cd8.
Proof. vm_compute. reflexivity. Qed.

(** [hashlib.pbkdf2_hmac("sha256", b"password", b"salt", 2, dklen=64)]. *)
Example pbkdf2_known_answer :
  PBKDF2.pbkdf2_hmac_sha256 (list_byte_of_string "password")
    (list_byte_of_string "salt") 2 64
  = bytes_of_N 64 0xae4d0c95af6b46d32d0adff928f06dd02a303f8ef3c251dfd6e2d85a95474c43830651afcb5c862f0b249bd031f7a67520d136470f5ec271ece91c07773253d9.
Proof. vm_compute. reflexivity. Qed.

(* ================================================================== *)
(** * [get_user_encryption_key] and the master key file *)
(* ================================================================== *)

Opaque RecordsEncryption.derive_user_key.

Section UserKeyFacts.
Import RecordsEncryption.


Lemma get_user_encryption_key_raise (w w1 : World) (e : exn)
      (user_id : string) :
  load_master_key w = (Raise e, w1) ->
  get_user_encryption_key user_id w = (Raise e, w1).
Proof.
  intros H. unfold get_user_encryption_key, bind at 1. now rewrite H.
Qed.

Lemma load_master_key_directory (w : World) :
  files w (master_key_path w) = Some Dir ->
  load_master_key w = (Raise IsADirectoryError, w).
Proof.
  intros H.
  unfold load_master_key, bind, Os.getcwd, Os.path_exists, Os.read_file.
  fold (master_key_path w). rewrite H. cbv beta iota. rewrite H. reflexivity.
Qed.


End UserKeyFacts.





(** X3.  A directory named [master.key] passes the existence test, and
    opening it fails: [load_master_key] and [get_user_encryption_key]
    raise [IsADirectoryError], no key is generated and nothing changes. *)
Theorem X3_key_path_is_directory (w : World) (user_id : string) :
  files w (RecordsEncryption.master_key_path w) = Some Dir ->
  RecordsEncryption.load_master_key w = (Raise IsADirectoryError, w)
  /\ RecordsEncryption.get_user_encryption_key user_id w
     = (Raise IsADirectoryError, w).
Proof.
  intros H. pose proof (load_master_key_directory w H) as L.
  split; [exact L|now apply get_user_encryption_key_raise].
Qed.

Lemma X3_key_path_is_directory_witness :
  RecordsEncryption.load_master_key Sample.world_key_dir
  = (Raise IsADirectoryError, Sample.world_key_dir)
  /\ RecordsEncryption.get_user_encryption_key "alice" Sample.world_key_dir
     = (Raise IsADirectoryError, Sample.world_key_dir).
Proof.
  apply (X3_key_path_is_directory Sample.world_key_dir "alice"). reflexivity.
Defined.

(* ================================================================== *)
(** * Rejected keys, IVs, nonces and tags *)
(* ================================================================== *)

(** X4.  The Records variant accepts no shortened or lengthened tag:
    when the tag text decodes to anything but 16 bytes, [decrypt_data]
    raises [ValueError], whatever the key, the IV and the ciphertext; it
    neither returns plaintext nor reports a tag mismatch. *)
Theorem X4_tag_must_have_16_bytes
  (c64 t64 : string) (ct tag key iv : list byte) :
  Base64.b64decode c64 = Ok ct ->
  Base64.b64decode t64 = Ok tag ->
  length tag <> 16 ->
  RecordsEncryption.decrypt_data c64 t64 key iv = Raise ValueError.
Proof.
  intros Hc Ht Hl.
  unfold RecordsEncryption.decrypt_data, Hazmat.cipher_gcm_decrypt,
    Hazmat.tag_len.
  rewrite Hc, Ht. cbn [rbind].
  destruct (negb (Hazmat.valid_key_len (length key))); [reflexivity|].
  destruct (negb (Hazmat.valid_iv_len (length iv))); [reflexivity|].
  apply Nat.eqb_neq in Hl. now rewrite Hl.
Qed.

Lemma X4_tag_must_have_16_bytes_witness :
  RecordsEncryption.decrypt_data
    (Base64.b64encode (fst (GCM.encrypt Sample.key32 Sample.iv32 Sample.hello [])))
    (Base64.b64encode
       (firstn 12 (snd (GCM.encrypt Sample.key32 Sample.iv32 Sample.hello []))))
    Sample.key32 Sample.iv32
  = Raise ValueError.
Proof.
  apply (X4_tag_must_have_16_bytes _ _ _ _ Sample.key32 Sample.iv32
           (b64decode_b64encode _) (b64decode_b64encode _)).
  rewrite length_firstn, encrypt_snd, tag_length. discriminate.
Defined.

(** X5.  The Records variant checks sizes before it touches data: a key
    that is not 16, 24 or 32 bytes long, or an IV shorter than 8 or
    longer than 128 bytes, makes [encrypt_data] raise [ValueError], and
    [decrypt_data] never returns plaintext under such a key or IV (it
    raises [ValueError] once both texts decode). *)
Theorem X5_records_key_and_iv_sizes
  (data key iv : list byte) (c64 t64 : string) :
  Hazmat.valid_key_len (length key) = false
  \/ Hazmat.valid_iv_len (length iv) = false ->
  RecordsEncryption.encrypt_data data key iv = Raise ValueError
  /\ (forall p, RecordsEncryption.decrypt_data c64 t64 key iv <> Ok p)
  /\ (forall ct tag,
         Base64.b64decode c64 = Ok ct -> Base64.b64decode t64 = Ok tag ->
         RecordsEncryption.decrypt_data c64 t64 key iv = Raise ValueError).
Proof.
  intros H.
  assert (D : forall ct tag,
             Hazmat.cipher_gcm_decrypt key iv tag ct = Raise ValueError).
  { intros ct tag. unfold Hazmat.cipher_gcm_decrypt.
    destruct (Hazmat.valid_key_len (length key)); [|reflexivity].
    destruct H as [H|H]; [discriminate|]. now rewrite H. }
  refine (conj _ (conj _ _)).
  - unfold RecordsEncryption.encrypt_data, Hazmat.cipher_gcm_encrypt.
    destruct (Hazmat.valid_key_len (length key)); [|reflexivity].
    destruct H as [H|H]; [discriminate|]. now rewrite H.
  - intros p. unfold RecordsEncryption.decrypt_data.
    destruct (Base64.b64decode c64) as [ct|e]; [|discriminate].
    destruct (Base64.b64decode t64) as [tag|e]; [|discriminate].
    cbn [rbind]. rewrite D. discriminate.
  - intros ct tag Hc Ht. unfold RecordsEncryption.decrypt_data.
    rewrite Hc, Ht. cbn [rbind]. apply D.
Qed.

Lemma X5_records_key_and_iv_sizes_witness :
  RecordsEncryption.encrypt_data Sample.hello Sample.key32 Sample.hello
  = Raise ValueError.
Proof.
  apply (X5_records_key_and_iv_sizes Sample.hello Sample.key32 Sample.hello
           EmptyString EmptyString).
  right. reflexivity.
Defined.

(** X6.  [KEY_SIZE] is not what decides: the Security variant takes the
    key that the variable spells and lets AESGCM judge its length.  A
    hexadecimal value that spells other than 16, 24 or 32 bytes (the
    empty value included) makes [encrypt_data] and [decrypt_data] raise
    [ValueError]. *)
Theorem X6_security_key_length
  (w : World) (hexkey : string) (mk plaintext ciphertext nonce : list byte)
  (opt_nonce : option (list byte)) :
  environ w SecurityCrypto.MASTER_KEY_ENV_VAR = Some hexkey ->
  Hex.fromhex hexkey = Ok mk ->
  Hazmat.valid_key_len (length mk) = false ->
  fst (SecurityCrypto.encrypt_data plaintext opt_nonce w) = Raise ValueError
  /\ SecurityCrypto.decrypt_data ciphertext nonce w = (Raise ValueError, w).
Proof.
  intros He Hh Hk.
  assert (G : forall v n, environ v SecurityCrypto.MASTER_KEY_ENV_VAR = Some hexkey ->
             SecurityCrypto.encrypt_data plaintext (Some n) v
             = (Raise ValueError, v)).
  { intros v n Hv.
    unfold SecurityCrypto.encrypt_data, bind at 1, ret at 1. unfold bind at 1.
    rewrite (get_master_key_set v hexkey mk Hv Hh).
    unfold bind, lift, Hazmat.AESGCM_new. now rewrite Hk. }
  split.
  - destruct opt_nonce as [n|]; [now rewrite G|].
    rewrite security_encrypt_data_fresh. now rewrite G.
  - unfold SecurityCrypto.decrypt_data, bind at 1.
    rewrite (get_master_key_set w hexkey mk He Hh).
    unfold bind, lift, Hazmat.AESGCM_new. now rewrite Hk.
Qed.

Lemma X6_security_key_length_witness :
  fst (SecurityCrypto.encrypt_data Sample.hello None Sample.world_small_key)
  = Raise ValueError
  /\ SecurityCrypto.decrypt_data Sample.sealed Sample.nonce12
                                 Sample.world_small_key
     = (Raise ValueError, Sample.world_small_key).
Proof.
  apply (X6_security_key_length Sample.world_small_key "00010203"
           (bytes_of_N 4 0x00010203));
    [reflexivity | vm_compute; reflexivity | reflexivity].
Defined.

(** X7.  With a valid master key, a nonce shorter than 8 or longer than
    128 bytes is refused by both operations of the Security variant with
    [ValueError]; nothing is encrypted or decrypted and the world is left
    as it was. *)
Theorem X7_security_nonce_length
  (w : World) (hexkey : string) (mk plaintext ciphertext nonce : list byte) :
  environ w SecurityCrypto.MASTER_KEY_ENV_VAR = Some hexkey ->
  Hex.fromhex hexkey = Ok mk ->
  Hazmat.valid_key_len (length mk) = true ->
  Hazmat.valid_iv_len (length nonce) = false ->
  SecurityCrypto.encrypt_data plaintext (Some nonce) w = (Raise ValueError, w)
  /\ SecurityCrypto.decrypt_data ciphertext nonce w = (Raise ValueError, w).
Proof.
  intros He Hh Hk Hn. split.
  - unfold SecurityCrypto.encrypt_data, bind at 1, ret at 1. unfold bind at 1.
    rewrite (get_master_key_set w hexkey mk He Hh).
    unfold bind, lift, Hazmat.AESGCM_new, Hazmat.AESGCM_encrypt.
    rewrite Hk. now rewrite Hn.
  - unfold SecurityCrypto.decrypt_data, bind at 1.
    rewrite (get_master_key_set w hexkey mk He Hh).
    unfold bind, lift, Hazmat.AESGCM_new, Hazmat.AESGCM_decrypt.
    rewrite Hk. now rewrite Hn.
Qed.

Lemma X7_security_nonce_length_witness :
  SecurityCrypto.encrypt_data Sample.hello (Some Sample.hello) Sample.world
  = (Raise ValueError, Sample.world)
  /\ SecurityCrypto.decrypt_data Sample.sealed Sample.hello Sample.world
     = (Raise ValueError, Sample.world).
Proof.
  apply (X7_security_nonce_length Sample.world Sample.hexkey Sample.master);
    [reflexivity | vm_compute; reflexivity | reflexivity | reflexivity].
Defined.

(* ================================================================== *)
(** * One key and one IV for all the records of a user *)
(* ================================================================== *)

Section KeystreamReuse.

Lemma bxor_spec (a b : byte) :
  Byte.to_N (bxor a b) = N.lxor (Byte.to_N a) (Byte.to_N b).
Proof.
  apply N.eqb_eq.
  apply (forall_byte2
           (fun a b => (Byte.to_N (bxor a b)
                        =? N.lxor (Byte.to_N a) (Byte.to_N b))%N)).
  vm_compute. reflexivity.
Qed.

Lemma to_N_inj (a b : byte) : Byte.to_N a = Byte.to_N b -> a = b.
Proof.
  intros H. rewrite <- (byte_of_N_to_N a), <- (byte_of_N_to_N b). now rewrite H.
Qed.

(** XOR with the same key byte on both sides cancels. *)
Lemma bxor_cancel (a b k : byte) : bxor (bxor a k) (bxor b k) = bxor a b.
Proof.
  apply to_N_inj. rewrite !bxor_spec.
  rewrite N.lxor_assoc, (N.lxor_comm (Byte.to_N b) (Byte.to_N k)).
  rewrite <- (N.lxor_assoc (Byte.to_N k)), N.lxor_nilpotent, N.lxor_0_l.
  reflexivity.
Qed.

Lemma xor_bytes_cancel (p1 p2 ks : list byte) :
  length p1 <= length ks -> length p2 <= length ks ->
  xor_bytes (xor_bytes p1 ks) (xor_bytes p2 ks) = xor_bytes p1 p2.
Proof.
  revert p2 ks. induction p1 as [|a p1 IH]; intros [|b p2] [|k ks] H1 H2;
    cbn [xor_bytes length] in *; try reflexivity; try lia.
  rewrite bxor_cancel, IH by lia. reflexivity.
Qed.

Lemma xor_bytes_app_r (p ks rest : list byte) :
  length p <= length ks -> xor_bytes p (ks ++ rest) = xor_bytes p ks.
Proof.
  revert ks. induction p as [|a p IH]; intros [|k ks] H;
    cbn [xor_bytes length app] in *; try reflexivity; try lia.
  rewrite IH by lia. reflexivity.
Qed.

Lemma keystream_app (key : list byte) (cb : N) (n k : nat) :
  exists rest,
    GCM.keystream key cb (n + k) = GCM.keystream key cb n ++ rest.
Proof.
  unfold GCM.keystream. rewrite seq_app, flat_map_app. eexists. reflexivity.
Qed.

(** Counter mode with any sufficient number of key stream blocks. *)
Lemma gctr_with_longer_stream (key : list byte) (icb : N) (x : list byte)
      (m : nat) :
  nchunks 16 (length x) <= m ->
  GCM.gctr key icb x = xor_bytes x (GCM.keystream key icb m).
Proof.
  intros H. unfold GCM.gctr.
  replace m with (nchunks 16 (length x) + (m - nchunks 16 (length x))) by lia.
  destruct (keystream_app key icb (nchunks 16 (length x))
              (m - nchunks 16 (length x))) as [rest ->].
  symmetry. apply xor_bytes_app_r, keystream_covers.
Qed.

(** Two plaintexts under the same key and IV: the ciphertexts XOR to
    what the plaintexts XOR to. *)
Lemma gcm_two_time_pad (key iv p1 p2 a1 a2 : list byte) :
  xor_bytes (fst (GCM.encrypt key iv p1 a1)) (fst (GCM.encrypt key iv p2 a2))
  = xor_bytes p1 p2.
Proof.
  unfold GCM.encrypt. cbn [fst].
  set (icb := GCM.inc32 (GCM.j0 key iv) 1).
  set (m := Nat.max (nchunks 16 (length p1)) (nchunks 16 (length p2))).
  rewrite (gctr_with_longer_stream key icb p1 m) by (unfold m; lia).
  rewrite (gctr_with_longer_stream key icb p2 m) by (unfold m; lia).
  apply xor_bytes_cancel.
  - rewrite keystream_length. pose proof (nchunks_covers 16 (length p1)).
    unfold m. lia.
  - rewrite keystream_length. pose proof (nchunks_covers 16 (length p2)).
    unfold m. lia.
Qed.

Lemma records_encrypt_data_inv (data key iv : list byte) (c64 t64 : string) :
  RecordsEncryption.encrypt_data data key iv = Ok (c64, t64) ->
  Hazmat.valid_key_len (length key) = true
  /\ Hazmat.valid_iv_len (length iv) = true
  /\ c64 = Base64.b64encode (fst (GCM.encrypt key iv data []))
  /\ t64 = Base64.b64encode (snd (GCM.encrypt key iv data [])).
Proof.
  unfold RecordsEncryption.encrypt_data, Hazmat.cipher_gcm_encrypt.
  destruct (Hazmat.valid_key_len (length key)); [|discriminate].
  destruct (Hazmat.valid_iv_len (length iv)); [|discriminate].
  cbn [negb rbind]. intros H. apply Ok_inj, pair_inj in H.
  destruct H as [<- <-]. auto.
Qed.

End KeystreamReuse.

(** X8.  The Records variant takes the IV as an argument and draws no
    randomness, and [derive_user_key] gives a user one key and one IV.
    Two data encrypted under the same key and IV are therefore
    encrypted with the same key stream: the XOR of the two ciphertexts
    (over their common length) is the XOR of the two plaintexts, so the
    ciphertexts alone reveal where and how two records of a user
    differ. *)
Theorem X8_same_key_and_iv_leak_xor
  (key iv data1 data2 : list byte) (c1 t1 c2 t2 : string) :
  RecordsEncryption.encrypt_data data1 key iv = Ok (c1, t1) ->
  RecordsEncryption.encrypt_data data2 key iv = Ok (c2, t2) ->
  exists ct1 ct2,
    Base64.b64decode c1 = Ok ct1
    /\ Base64.b64decode c2 = Ok ct2
    /\ xor_bytes ct1 ct2 = xor_bytes data1 data2.
Proof.
  intros H1 H2.
  apply records_encrypt_data_inv in H1. destruct H1 as (_ & _ & -> & _).
  apply records_encrypt_data_inv in H2. destruct H2 as (_ & _ & -> & _).
  eexists _, _.
  refine (conj (b64decode_b64encode _) (conj (b64decode_b64encode _) _)).
  apply gcm_two_time_pad.
Qed.

Lemma X8_same_key_and_iv_leak_xor_witness :
  exists ct1 ct2,
    Base64.b64decode
      (Base64.b64encode (fst (GCM.encrypt Sample.key32 Sample.iv32
                                          Sample.hello [])))
    = Ok ct1
    /\ Base64.b64decode
         (Base64.b64encode (fst (GCM.encrypt Sample.key32 Sample.iv32
                                             Sample.record_text [])))
       = Ok ct2
    /\ xor_bytes ct1 ct2 = xor_bytes Sample.hello Sample.record_text.
Proof.
  apply (X8_same_key_and_iv_leak_xor Sample.key32 Sample.iv32
           Sample.hello Sample.record_text _
           (Base64.b64encode (snd (GCM.encrypt Sample.key32 Sample.iv32
                                               Sample.hello [])))
           _
           (Base64.b64encode (snd (GCM.encrypt Sample.key32 Sample.iv32
                                               Sample.record_text []))));
    apply records_encrypt_data; reflexivity.
Defined.

(* ================================================================== *)
(** * The texts of the Records variant *)
(* ================================================================== *)

Section TextFacts.
Import Base64.

Lemma b2a_base64_length (bs : list byte) :
  String.length (b2a_base64 bs) = 4 * ((length bs + 2) / 3).
Proof.
  induction bs as [|a|a b|a b c bs IH] using list_ind3.
  - reflexivity.
  - reflexivity.
  - reflexivity.
  - cbn [b2a_base64 String.length length]. rewrite IH.
    replace (S (S (S (length bs))) + 2) with (length bs + 2 + 1 * 3) by lia.
    rewrite Nat.div_add by discriminate. lia.
Qed.




End TextFacts.

(** X9.  What [encrypt_data] of the Records variant returns has a size
    known in advance: the ciphertext text has four characters for every
    three bytes of data, rounded up, and decodes to as many bytes as the
    data has; the tag text has 24 characters and decodes to 16 bytes. *)
Theorem X9_records_output_sizes
  (data key iv : list byte) (c64 t64 : string) :
  RecordsEncryption.encrypt_data data key iv = Ok (c64, t64) ->
  String.length c64 = 4 * ((length data + 2) / 3)
  /\ String.length t64 = 24
  /\ exists ct tag,
      Base64.b64decode c64 = Ok ct /\ length ct = length data
      /\ Base64.b64decode t64 = Ok tag /\ length tag = 16.
Proof.
  intros H. apply records_encrypt_data_inv in H.
  destruct H as (_ & _ & -> & ->).
  refine (conj _ (conj _ _)).
  - unfold Base64.b64encode.
    now rewrite b2a_base64_length, encrypt_fst_length.
  - unfold Base64.b64encode.
    now rewrite b2a_base64_length, encrypt_snd, tag_length.
  - exists (fst (GCM.encrypt key iv data [])), (snd (GCM.encrypt key iv data [])).
    refine (conj (b64decode_b64encode _) (conj (encrypt_fst_length _ _ _ _)
              (conj (b64decode_b64encode _) _))).
    rewrite encrypt_snd. apply tag_length.
Qed.

Lemma X9_records_output_sizes_witness :
  String.length
    (Base64.b64encode (fst (GCM.encrypt Sample.key32 Sample.iv32 Sample.hello [])))
  = 8
  /\ String.length
       (Base64.b64encode (snd (GCM.encrypt Sample.key32 Sample.iv32 Sample.hello [])))
     = 24.
Proof.
  destruct (X9_records_output_sizes Sample.hello Sample.key32 Sample.iv32 _ _
              (records_encrypt_data Sample.key32 Sample.iv32 eq_refl eq_refl
                 Sample.hello))
    as (H1 & H2 & _).
  split; [exact H1|exact H2].
Defined.



(* ================================================================== *)
(** * The settings and the code *)
(* ================================================================== *)

(** X11.  The encryption helpers do not read the settings module, and
    agree with it all the same: a derived key has [AES_GCM_KEY_SIZE]
    bytes, which is also [KEY_SIZE] and a key length the ciphers accept,
    and [derive_user_key] runs PBKDF2 for [PBKDF2_ITERATIONS] rounds. *)
Theorem X11_settings_agree_with_code (master_key : list byte) (user_id : string) :
  length (fst (RecordsEncryption.derive_user_key master_key user_id))
  = Settings.AES_GCM_KEY_SIZE
  /\ SecurityCrypto.KEY_SIZE = Settings.AES_GCM_KEY_SIZE
  /\ Hazmat.valid_key_len Settings.AES_GCM_KEY_SIZE = true
  /\ fst (RecordsEncryption.derive_user_key master_key user_id)
       ++ snd (RecordsEncryption.derive_user_key master_key user_id)
     = PBKDF2.pbkdf2_hmac_sha256 master_key (RecordsEncryption.salt user_id)
         Settings.PBKDF2_ITERATIONS (2 * Settings.AES_GCM_KEY_SIZE).
Proof.
  refine (conj (proj1 (derive_user_key_lengths master_key user_id))
            (conj eq_refl (conj eq_refl _))).
  apply derive_user_key_parts.
Qed.

(* ================================================================== *)
(** * A nonce supplied twice *)
(* ================================================================== *)

Section NonceReuse.
Import SecurityCrypto Hazmat.

(** What a returned ciphertext is made of, read off the call alone. *)
Lemma security_encrypt_data_shape (w w' : World)
      (plaintext nonce c n : list byte) :
  encrypt_data plaintext (Some nonce) w = (Ok (c, n), w') ->
  exists mk,
    fst (_get_master_key w) = Ok mk
    /\ c = fst (GCM.encrypt mk nonce plaintext [])
             ++ snd (GCM.encrypt mk nonce plaintext []).
Proof.
  unfold encrypt_data, bind at 1, ret at 1. unfold bind at 1.
  destruct (_get_master_key w) as [[mk|e] v]; [|discriminate].
  unfold bind, lift, ret, AESGCM_new, AESGCM_encrypt.
  destruct (valid_key_len (length mk)); [|discriminate].
  cbn [aead_key].
  destruct (negb (valid_iv_len (length nonce))); [discriminate|].
  intros H. apply pair_inj in H. destruct H as [H _].
  apply Ok_inj, pair_inj in H. destruct H as [<- _].
  exists mk. split; reflexivity.
Qed.

End NonceReuse.

(** X12.  The Security variant uses a supplied nonce as it is.  When
    the same nonce is supplied for two plaintexts in the same
    environment, both are encrypted with the same key stream: the XOR of
    the two ciphertext bodies (each as long as its plaintext, the tags
    left aside) is the XOR of the two plaintexts. *)
Theorem X12_supplied_nonce_reuse_leaks_xor
  (w w1 w2 : World) (nonce p1 p2 c1 c2 n1 n2 : list byte) :
  SecurityCrypto.encrypt_data p1 (Some nonce) w = (Ok (c1, n1), w1) ->
  SecurityCrypto.encrypt_data p2 (Some nonce) w = (Ok (c2, n2), w2) ->
  xor_bytes (firstn (length p1) c1) (firstn (length p2) c2) = xor_bytes p1 p2.
Proof.
  intros H1 H2.
  apply security_encrypt_data_shape in H1. destruct H1 as (mk & K1 & ->).
  apply security_encrypt_data_shape in H2. destruct H2 as (mk' & K2 & ->).
  rewrite K1 in K2. apply Ok_inj in K2. subst mk'.
  destruct (firstn_skipn_app_exact _ (snd (GCM.encrypt mk nonce p1 []))
              (length p1) (encrypt_fst_length mk nonce p1 [])) as [-> _].
  destruct (firstn_skipn_app_exact _ (snd (GCM.encrypt mk nonce p2 []))
              (length p2) (encrypt_fst_length mk nonce p2 [])) as [-> _].
  apply gcm_two_time_pad.
Qed.

Lemma X12_supplied_nonce_reuse_leaks_xor_witness :
  xor_bytes
    (firstn (length Sample.hello)
       (fst (GCM.encrypt Sample.master Sample.nonce12 Sample.hello [])
          ++ snd (GCM.encrypt Sample.master Sample.nonce12 Sample.hello [])))
    (firstn (length Sample.record_text)
       (fst (GCM.encrypt Sample.master Sample.nonce12 Sample.record_text [])
          ++ snd (GCM.encrypt Sample.master Sample.nonce12 Sample.record_text [])))
  = xor_bytes Sample.hello Sample.record_text.
Proof.
  apply (X12_supplied_nonce_reuse_leaks_xor Sample.world Sample.world
           Sample.world Sample.nonce12 Sample.hello Sample.record_text
           _ _ Sample.nonce12 Sample.nonce12).
  - apply (security_encrypt_data_nonce Sample.world Sample.hexkey Sample.master
             eq_refl ltac:(vm_compute; reflexivity) eq_refl Sample.hello
             Sample.nonce12 eq_refl).
  - apply (security_encrypt_data_nonce Sample.world Sample.hexkey Sample.master
             eq_refl ltac:(vm_compute; reflexivity) eq_refl Sample.record_text
             Sample.nonce12 eq_refl).
Defined.
